(** * The static content of the portfolio site

    The repository exports two array literals, [projects]
    (src/utils/projects.ts) and [bookData], and ships blog posts whose
    metadata is a YAML front-matter block.  The data is embedded as it
    is written and its shape properties are proved.  The only functions
    in the sources are the server-side handlers that one of the posts
    presents; they are embedded over an abstract GraphQL backend. *)

From Stdlib Require Import Ascii.
From stdpp Require Import base list strings gmap sorting.

(** ** Object literals

    A TypeScript object literal is a sequence of [key: value] properties.
    Every property value in the two exported arrays is a string literal.
    Evaluating the literal defines the properties from left to right on a
    fresh object, a later property of the same key replacing an earlier
    one; the object is a finite map from property names to values. *)
Module Js.

Definition literal : Type := list (string * string).

Definition define (o : gmap string string) (kv : string * string)
  : gmap string string :=
  <[kv.1 := kv.2]> o.

Definition eval (l : literal) : gmap string string := foldl define ∅ l.

End Js.

(** ** Character classes and string shapes

    The value formats the data model names (a hex colour, a URL, a date)
    are decided on the characters of the string. *)
Module Text.

Definition chars (s : string) : list ascii := String.list_ascii_of_string s.

Definition between (lo hi : ascii) (c : ascii) : bool :=
  Nat.leb (nat_of_ascii lo) (nat_of_ascii c) &&
  Nat.leb (nat_of_ascii c) (nat_of_ascii hi).

Definition is_digit (c : ascii) : bool := between "0" "9" c.
Definition is_lower (c : ascii) : bool := between "a" "z" c.
Definition is_upper (c : ascii) : bool := between "A" "Z" c.
Definition is_alnum (c : ascii) : bool := is_digit c || is_lower c || is_upper c.

Definition is_hex_digit (c : ascii) : bool :=
  is_digit c || between "a" "f" c || between "A" "F" c.

(** A hex colour: the character # and then hexadecimal digits, at least
    one. *)
Definition hex_color (s : string) : bool :=
  match s with
  | String "#" ds => negb (bool_decide (ds = "")) && forallb is_hex_digit (chars ds)
  | _ => false
  end.

(** [strip_prefix p s] is what follows [p] in [s], when [s] starts with
    [p]. *)
Fixpoint strip_prefix (p s : list ascii) : option (list ascii) :=
  match p, s with
  | [], _ => Some s
  | a :: p', b :: s' => if Ascii.eqb a b then strip_prefix p' s' else None
  | _ :: _, [] => None
  end.

(** The fields of [s] between the occurrences of [sep]; never empty. *)
Fixpoint split_on (sep : ascii) (s : list ascii) : list (list ascii) :=
  match s with
  | [] => [[]]
  | c :: s' =>
      if Ascii.eqb c sep then [] :: split_on sep s'
      else match split_on sep s' with
           | w :: ws => (c :: w) :: ws
           | [] => [[c]]
           end
  end.

(** The longest prefix without [sep], and the rest from [sep] on. *)
Fixpoint break_at (sep : ascii) (s : list ascii) : list ascii * list ascii :=
  match s with
  | [] => ([], [])
  | c :: s' =>
      if Ascii.eqb c sep then ([], s)
      else let '(h, t) := break_at sep s' in (c :: h, t)
  end.

(** *** URLs

    An absolute http or https URL: the scheme, "://", a host name of at
    least two dot-separated labels, each of letters, digits and inner
    hyphens, and optionally a path that starts at the first "/" and has
    only visible ASCII characters. *)
Definition is_label_char (c : ascii) : bool := is_alnum c || Ascii.eqb c "-".

Definition label_ok (l : list ascii) : bool :=
  match l, reverse l with
  | a :: _, z :: _ => is_alnum a && is_alnum z && forallb is_label_char l
  | _, _ => false
  end.

Definition host_ok (h : list ascii) : bool :=
  let labels := split_on "." h in
  Nat.leb 2 (length labels) && forallb label_ok labels.

Definition is_visible (c : ascii) : bool := between "!" "~" c.

Definition after_scheme (s : list ascii) : option (list ascii) :=
  match strip_prefix (chars "https://") s with
  | Some r => Some r
  | None => strip_prefix (chars "http://") s
  end.

Definition url (s : string) : bool :=
  match after_scheme (chars s) with
  | Some r => let '(h, p) := break_at "/" r in host_ok h && forallb is_visible p
  | None => false
  end.

End Text.

(** ** src/utils/projects.ts *)
Module Projects.

(** The elements of the array literal, each with its properties in the
    order of the source (the second record orders them differently). *)
Definition projects_src : list Js.literal :=
  [ [ ("name", "Kompa");
      ("description",
       "A comparables marketplace for the built environment, providing access to verified property data and insights.");
      ("accent", "#FF7E44");
      ("repo", "");
      ("live", "https://kompa-web.vercel.app/");
      ("image", "") ];
    [ ("name", "Yenko Studio");
      ("description",
       "A platform that transforms creative ideas into digital products through technology and design.");
      ("live", "https://yenko.studio");
      ("image", "");
      ("repo", "");
      ("accent", "#FF7E44") ];
    [ ("name", "Vwaza Web");
      ("description",
       "The main site for Vwaza, showcasing its mission, features, and opportunities for African creators.");
      ("accent", "#FF7E44");
      ("repo", "");
      ("live", "https://vwaza.com/");
      ("image", "") ];
    [ ("name", "Vwaza Music Player");
      ("description",
       "An online music player for streaming and discovering songs from African artists.");
      ("accent", "#FF7E44");
      ("repo", "");
      ("live", "https://music.vwaza.com/");
      ("image", "") ];
    [ ("name", "M11 Collections");
      ("description",
       "A luxury rental platform offering high-end homes and hotel-style stays for modern travelers.");
      ("accent", "#FF7E44");
      ("repo", "");
      ("live", "https://www.m11collection.com/");
      ("image", "") ];
    [ ("name", "NIC Complaints Hub");
      ("description",
       "A portal for Ghanaians to file and track complaints against insurance companies and agents.");
      ("accent", "#FF7E44");
      ("repo", "");
      ("live", "https://niccomplaintshub.com/");
      ("image", "") ] ].

(** [export const projects: IProjectProps[] = [ ... ]] *)
Definition projects : list (gmap string string) := Js.eval <$> projects_src.

(** Modelled from the spec: the interface [IProjectProps] is imported
    from "@/types", which is not among the sources; its property names
    are the six fields the data model lists for a project record. *)
Definition IProjectProps : list string :=
  ["name"; "description"; "accent"; "repo"; "live"; "image"].

End Projects.

(** ** The book list *)
Module Books.

(** The elements of the array literal.  Each [status] is written
    ["..." as const]: the assertion narrows the type of the property to
    the literal and leaves the value, a string, as it is. *)
Definition bookData_src : list Js.literal :=
  [
    [ ("title", "Homegoing"); ("author", "Yaa Gyasi"); ("status", "Up Next") ];
    [ ("title", "The Leavers"); ("author", "Lisa Ko"); ("status", "Reading") ];
    [ ("title", "Go in Practice"); ("author", "N.Kozyra, et al"); ("status", "Reading") ];
    [ ("title", "Little Fires Everywhere"); ("author", "Celeste Ng"); ("status", "Finished") ];
    [ ("title", "Children of Blood & Bone"); ("author", "Tomi Adeyemi"); ("status", "Finished") ];
    [ ("title", "A Little Life"); ("author", "Hanya Yanagihara"); ("status", "Finished") ];
    [ ("title", "The Three-Body Problem"); ("author", "Cixin Liu"); ("status", "Finished") ];
    [ ("title", "The Vagrants"); ("author", "Yiyun Li"); ("status", "Finished") ];
    [ ("title", "A Minor Chorus"); ("author", "Billy-Ray Belcourt"); ("status", "Finished") ];
    [ ("title", "Co-existence"); ("author", "Billy-Ray Belcourt"); ("status", "Finished") ];
    [ ("title", "The Handmaid's Tale"); ("author", "Margaret Atwood"); ("status", "Finished") ];
    [ ("title", "Normal People"); ("author", "Sally Rooney"); ("status", "Finished") ];
    [ ("title", "Where The Crawdads Sing"); ("author", "Delia Owens"); ("status", "Finished") ];
    [ ("title", "Black Matter"); ("author", "Blake Crouch"); ("status", "Finished") ];
    [ ("title", "Carrie"); ("author", "Stephen King"); ("status", "Finished") ];
    [ ("title", "Sleeping Beauty"); ("author", "Stephen King, Owen King"); ("status", "Finished") ];
    [ ("title", "Tattooist of Auschwitz"); ("author", "Heather Morris"); ("status", "Finished") ];
    [ ("title", "Fifty Fifty"); ("author", "James Patterson, Candice Fox"); ("status", "Finished") ] ].

(** [export const bookData = [ ... ]] *)
Definition bookData : list (gmap string string) := Js.eval <$> bookData_src.

(** The three reading statuses of the data model and their spelling in
    the source. *)
Inductive Status : Set := UpNext | Reading | Finished.

Definition Status_show (st : Status) : string :=
  match st with
  | UpNext => "Up Next"
  | Reading => "Reading"
  | Finished => "Finished"
  end.

Definition Status_parse (s : string) : option Status :=
  if decide (s = "Up Next") then Some UpNext
  else if decide (s = "Reading") then Some Reading
  else if decide (s = "Finished") then Some Finished
  else None.

(** Up Next < Reading < Finished *)
Definition Status_rank (st : Status) : nat :=
  match st with
  | UpNext => 0
  | Reading => 1
  | Finished => 2
  end.

Definition status_of (b : gmap string string) : option Status :=
  b !! "status" ≫= Status_parse.

End Books.

(** ** Calendar dates

    The posts write their date as an English month name, the day of the
    month, a comma and the year: "December 17, 2025".  [Date.parse] reads
    that format and accepts a date of the calendar only. *)
Module Date.

Record date : Set := { year : nat; month : nat; day : nat }.

Definition month_names : list string :=
  ["January"; "February"; "March"; "April"; "May"; "June"; "July";
   "August"; "September"; "October"; "November"; "December"].

(** The number of the month, from 1. *)
Definition month_of_name (s : string) : option nat :=
  (λ p, S p.1) <$> list_find (λ n, n = s) month_names.

Definition is_leap (y : nat) : bool :=
  Nat.eqb (y mod 4) 0 && (negb (Nat.eqb (y mod 100) 0) || Nat.eqb (y mod 400) 0).

Definition days_in_month (y m : nat) : nat :=
  match m with
  | 1 | 3 | 5 | 7 | 8 | 10 | 12 => 31
  | 4 | 6 | 9 | 11 => 30
  | 2 => if is_leap y then 29 else 28
  | _ => 0
  end.

Definition valid (d : date) : Prop :=
  1 ≤ month d ≤ 12 ∧ 1 ≤ day d ≤ days_in_month (year d) (month d).

Fixpoint digits_value (acc : nat) (ds : list ascii) : option nat :=
  match ds with
  | [] => Some acc
  | d :: ds' => n ← Ascii.is_nat d; digits_value (10 * acc + n) ds'
  end.

(** A non-empty run of decimal digits. *)
Definition number (ds : list ascii) : option nat :=
  match ds with
  | [] => None
  | _ :: _ => digits_value 0 ds
  end.

(** The day, written with the comma after it. *)
Definition day_comma (ds : list ascii) : option nat :=
  match reverse ds with
  | c :: rd => if Ascii.eqb c "," then number (reverse rd) else None
  | [] => None
  end.

Definition parse (s : string) : option date :=
  match Text.split_on " " (Text.chars s) with
  | [mname; dcomma; yr] =>
      m ← month_of_name (String.string_of_list_ascii mname);
      d ← day_comma dcomma;
      y ← number yr;
      if decide (1 ≤ d ≤ days_in_month y m)
      then Some {| year := y; month := m; day := d |}
      else None
  | _ => None
  end.

End Date.

(** ** Front-matter

    The metadata of a post is a YAML block mapping between two [---]
    lines.  The values the posts use are plain scalars (strings), the
    booleans [true] and [false], and flow sequences of quoted strings. *)
Module Yaml.

Inductive value : Type :=
| Str (s : string)
| Bool (b : bool)
| Seq (items : list string).

Definition mapping : Type := list (string * value).

Definition load (m : mapping) : gmap string value := list_to_map m.

End Yaml.

(** ** The blog posts *)
Module Posts.

(** Front-matter of "Why I'm No Longer a GraphQL Maximalist". *)
Definition graphql_maximalist : Yaml.mapping :=
  [ ("title", Yaml.Str "Why I'm No Longer a GraphQL Maximalist");
    ("description",
     Yaml.Str "GraphQL feels like magic until you hit production. Here are the hard lessons I learned about security, introspection, and knowing when to just use REST.");
    ("publishDate", Yaml.Str "December 17, 2025");
    ("tags", Yaml.Seq ["software development"; "graphql"]);
    ("draft", Yaml.Bool false) ].

(** Front-matter of "Type-Safe GraphQL Without Exposing Your Schema". *)
Definition type_safe_graphql : Yaml.mapping :=
  [ ("title", Yaml.Str "Type-Safe GraphQL Without Exposing Your Schema");
    ("description",
     Yaml.Str "How to set up graphql-request and GraphQL Code Generator in a BFF pattern so you get full type safety without leaking your schema to the browser.");
    ("publishDate", Yaml.Str "December 17, 2025");
    ("tags", Yaml.Seq ["software development"; "graphql"; "typescript"]);
    ("draft", Yaml.Bool true) ].

(** The sources hold the second post twice, a longer and a shorter
    text under the same front-matter. *)
Definition posts_src : list Yaml.mapping :=
  [graphql_maximalist; type_safe_graphql; type_safe_graphql].

Definition posts : list (gmap string Yaml.value) := Yaml.load <$> posts_src.

End Posts.

(** ** The handlers of "Type-Safe GraphQL Without Exposing Your Schema"

    The post carries three server-side handlers that put one GraphQL
    backend behind plain JSON: the Next.js route [GET], the Remix
    [loader] and the TanStack Start server function [getUser].  They are
    embedded with the backend as a parameter. *)
Module Bff.

(** The JSON values the handlers build: strings, arrays and objects,
    an object with its properties in the order they are written. *)
#[local] Unset Elimination Schemes.
Inductive json : Type :=
| JStr (s : string)
| JArr (items : list json)
| JObj (props : list (string * json)).
#[local] Set Elimination Schemes.

(** [j.k] on an object; the first property of that name. *)
Definition field (k : string) (j : json) : option json :=
  match j with
  | JObj props => (λ r, r.2.2) <$> list_find (λ kv, kv.1 = k) props
  | _ => None
  end.

(** Every property name that occurs in a value, at any depth. *)
Fixpoint keys (j : json) : list string :=
  match j with
  | JStr _ => []
  | JArr items => concat (List.map keys items)
  | JObj props => concat (List.map (λ kv, kv.1 :: keys kv.2) props)
  end.

(** What a handler leaves behind: a value, or an exception.  A rejected
    request and a property read on [null] are the two exceptions the
    handlers can meet. *)
Inductive exn : Set := Rejection | TypeError.

Inductive completion (A : Type) : Type :=
| Return (a : A)
| Throw (e : exn).
Arguments Return {A} a.
Arguments Throw {A} e.

(** Sequencing two steps: an exception of the first skips the second. *)
#[global] Instance completion_bind : MBind completion := λ A B k c,
  match c with
  | Return a => k a
  | Throw e => Throw e
  end.

(** [await p]: the value of a fulfilled promise; a rejected one throws. *)
Definition await {A : Type} (p : option A) : completion A :=
  match p with
  | Some a => Return a
  | None => Throw Rejection
  end.

(** [o.p] where [o] may be [null]. *)
Definition deref {A : Type} (o : option A) : completion A :=
  match o with
  | Some a => Return a
  | None => Throw TypeError
  end.

(** The result types of "@/gql/graphql" are generated by the code
    generator and are not in the sources.  They follow the selection
    sets of queries.graphql in the post, every selected scalar a string;
    [user] is [null] when the backend has no such user. *)
Record User : Type := {
  User_id : string;
  User_first_name : string;
  User_last_name : string;
  User_email : string;
  User_avatar_url : string
}.

Record Post : Type := {
  Post_id : string;
  Post_title : string;
  Post_excerpt : string;
  Post_created_at : string
}.

Record GetUserQuery : Type := { GetUser_user : option User }.

Record UserPosts : Type := { UserPosts_posts : list Post }.

Record GetUserPostsQuery : Type := { GetUserPosts_user : option UserPosts }.

(** [graphqlClient.request(document, variables)], one method for each
    of the two documents; [None] is a promise that rejects. *)
Record GraphQLClient : Type := {
  request_GetUser : string → option GetUserQuery;
  request_GetUserPosts : string → nat → option GetUserPostsQuery
}.

Record Response : Type := { status : nat; body : json }.

(** [Response.json(data, init)]; the status is 200 without [init]. *)
Definition Response_json (data : json) (init : option nat) : Response :=
  {| status := default 200 init; body := data |}.

(** The template literal of the three handlers. *)
Definition full_name (u : User) : string :=
  User_first_name u +:+ " " +:+ User_last_name u.

(** src/app/api/users/[id]/route.ts: the body of the [try] block. *)
Definition GET_try (graphqlClient : GraphQLClient) (params_id : string)
  : completion Response :=
  data ← await (request_GetUser graphqlClient params_id);
  user ← deref (GetUser_user data);
  Return (Response_json
            (JObj [ ("id", JStr (User_id user));
                    ("name", JStr (full_name user));
                    ("email", JStr (User_email user));
                    ("avatarUrl", JStr (User_avatar_url user)) ])
            None).

(** [export async function GET(request, { params })] *)
Definition GET (graphqlClient : GraphQLClient) (params_id : string) : Response :=
  match GET_try graphqlClient params_id with
  | Return r => r
  | Throw _ =>
      Response_json (JObj [("error", JStr "User not found")]) (Some 404)
  end.

(** src/routes/users.$id.tsx: [export async function loader({ params })].
    [Promise.all] over the two requests rejects as soon as one of them
    does; [json] of Remix answers with status 200. *)
Definition loader (graphqlClient : GraphQLClient) (params_id : string)
  : completion Response :=
  userData ← await (request_GetUser graphqlClient params_id);
  postsData ← await (request_GetUserPosts graphqlClient params_id 5);
  user ← deref (GetUser_user userData);
  posts_user ← deref (GetUserPosts_user postsData);
  Return (Response_json
            (JObj [ ("user",
                     JObj [ ("id", JStr (User_id user));
                            ("name", JStr (full_name user));
                            ("email", JStr (User_email user)) ]);
                    ("posts",
                     JArr (List.map
                             (λ post,
                                JObj [ ("id", JStr (Post_id post));
                                       ("title", JStr (Post_title post));
                                       ("excerpt", JStr (Post_excerpt post)) ])
                             (UserPosts_posts posts_user))) ])
            None).

(** src/routes/users/$id.tsx: the function that
    [const getUser = createServerFn("GET", ...)] runs on the server. *)
Definition getUser (graphqlClient : GraphQLClient) (id : string)
  : completion json :=
  data ← await (request_GetUser graphqlClient id);
  user ← deref (GetUser_user data);
  Return (JObj [ ("id", JStr (User_id user));
                 ("name", JStr (full_name user));
                 ("email", JStr (User_email user)) ]).

(** The answer of [GET] in its [catch] branch, as a value. *)
Definition not_found : Response :=
  {| status := 404; body := JObj [("error", JStr "User not found")] |}.

(** The object [loader] makes of a post, as a function. *)
Definition post_view (post : Post) : json :=
  JObj [ ("id", JStr (Post_id post));
         ("title", JStr (Post_title post));
         ("excerpt", JStr (Post_excerpt post)) ].

(** A backend with the one user of the post's "What the browser sees",
    who has two posts. *)
Definition john : User :=
  {| User_id := "123"; User_first_name := "John"; User_last_name := "Doe";
     User_email := "john@example.com"; User_avatar_url := "" |}.

Definition john_posts : list Post :=
  [ {| Post_id := "1"; Post_title := "First"; Post_excerpt := "a";
       Post_created_at := "2025-01-01" |};
    {| Post_id := "2"; Post_title := "Second"; Post_excerpt := "b";
       Post_created_at := "2025-02-01" |} ].

Definition sample_client : GraphQLClient :=
  {| request_GetUser := λ id,
       Some {| GetUser_user := if decide (id = "123") then Some john else None |};
     request_GetUserPosts := λ id limit,
       Some {| GetUserPosts_user :=
                 if decide (id = "123")
                 then Some {| UserPosts_posts := take limit john_posts |}
                 else None |} |}.

End Bff.

(** ** The string shapes, as propositions *)

Lemma hex_color_spec (s : string) :
  Text.hex_color s = true ↔
  ∃ ds : string,
    s = String "#" ds ∧ ds ≠ "" ∧ Forall (λ c, Text.is_hex_digit c) (Text.chars ds).
Proof.
  split.
  - destruct s as [|c ds]; [done|].
    destruct c as [[] [] [] [] [] [] [] []]; try done.
    simpl. intros [Hne Hhex]%andb_true_iff.
    exists ds. split_and!; [done|..].
    + apply negb_true_iff, bool_decide_eq_false in Hne. done.
    + apply Forall_forall. intros c Hc%list_elem_of_In.
      apply Is_true_true. by eapply forallb_forall in Hhex.
  - intros (ds & -> & Hne & Hhex). simpl.
    apply andb_true_iff. split.
    + by apply negb_true_iff, bool_decide_eq_false.
    + apply forallb_forall. intros c Hc%list_elem_of_In.
      apply Is_true_true. by eapply Forall_forall in Hhex.
Qed.

(** [Text.url] and [Date.parse] on strings they must refuse. *)
Example url_refuses :
  Text.url "" = false ∧ Text.url "kompa" = false ∧
  Text.url "https://" = false ∧ Text.url "https://localhost" = false ∧
  Text.url "http//vwaza.com" = false ∧ Text.url "https://vwaza..com/" = false ∧
  Text.url "https://-vwaza.com" = false ∧ Text.url "https://vwaza.com/a b" = false ∧
  Text.url "ftp://vwaza.com" = false.
Proof. by vm_compute. Qed.

Example url_accepts :
  Text.url "http://vwaza.com" = true ∧
  Text.url "https://kompa-web.vercel.app/" = true ∧
  Text.url "https://github.com/evans-kwofie/portfolio" = true.
Proof. by vm_compute. Qed.

Example hex_color_refuses :
  Text.hex_color "" = false ∧ Text.hex_color "#" = false ∧
  Text.hex_color "FF7E44" = false ∧ Text.hex_color "#FF7G44" = false ∧
  Text.hex_color "orange" = false.
Proof. by vm_compute. Qed.

Example parse_refuses :
  Date.parse "" = None ∧ Date.parse "Dec 17, 2025" = None ∧
  Date.parse "December 17 2025" = None ∧ Date.parse "December 0, 2025" = None ∧
  Date.parse "December 32, 2025" = None ∧ Date.parse "February 29, 2025" = None ∧
  Date.parse "December , 2025" = None ∧ Date.parse "December 17, " = None.
Proof. by vm_compute. Qed.

Example parse_leap_day :
  Date.parse "February 29, 2024" =
  Some {| Date.year := 2024; Date.month := 2; Date.day := 29 |}.
Proof. by vm_compute. Qed.

(** ** Membership in a list literal *)

Lemma elem_of_fmap_cases {A B : Type} (f : A → B) (P : B → Prop)
    (srcs : list A) :
  Forall (λ l, P (f l)) srcs →
  ∀ o, o ∈ f <$> srcs → P o.
Proof.
  intros HP o Ho.
  apply list_elem_of_fmap in Ho as (l & -> & Hl).
  by eapply Forall_forall in HP.
Qed.

Section projects_shape.
Import Projects.

(** C1: every record of [projects] has a [name], a [description] and an
    [accent], and none of the three is the empty string. *)
Theorem projects_name_description_accent_nonempty (o : gmap string string) :
  o ∈ projects →
  ∃ n d a : string,
    o !! "name" = Some n ∧ n ≠ "" ∧
    o !! "description" = Some d ∧ d ≠ "" ∧
    o !! "accent" = Some a ∧ a ≠ "".
Proof.
  revert o. apply elem_of_fmap_cases.
  repeat apply Forall_cons_2; [..|apply Forall_nil_2];
    (do 3 eexists; repeat split; first [reflexivity | done]).
Qed.

Lemma projects_name_description_accent_nonempty_witness :
  let o := Js.eval (hd [] projects_src) in
  o ∈ projects ∧
  ∃ n d a : string,
    o !! "name" = Some n ∧ n ≠ "" ∧
    o !! "description" = Some d ∧ d ≠ "" ∧
    o !! "accent" = Some a ∧ a ≠ "".
Proof.
  intros o. split; [apply list_elem_of_here|].
  apply (projects_name_description_accent_nonempty o), list_elem_of_here.
Defined.

(** C4: every record of [projects] has each of the six properties
    [name], [description], [accent], [repo], [live] and [image]. *)
Theorem projects_all_fields_present (o : gmap string string) (f : string) :
  o ∈ projects → f ∈ IProjectProps → is_Some (o !! f).
Proof.
  intros Ho Hf. revert o Ho. apply elem_of_fmap_cases.
  apply list_elem_of_In in Hf. simpl in Hf.
  repeat destruct Hf as [<-|Hf]; try done;
    repeat apply Forall_cons_2; try apply Forall_nil_2; by eexists.
Qed.

Lemma projects_all_fields_present_witness :
  let o := Js.eval (hd [] projects_src) in
  o ∈ projects ∧ "image" ∈ IProjectProps ∧ is_Some (o !! "image").
Proof.
  intros o.
  assert (Ho : o ∈ projects) by apply list_elem_of_here.
  assert (Hf : "image" ∈ IProjectProps) by (apply (bool_decide_unpack _); vm_compute; exact I).
  exact (conj Ho (conj Hf (projects_all_fields_present o "image" Ho Hf))).
Defined.

(** X8: a record of [projects] has the six properties of
    [IProjectProps] and no other. *)
Lemma projects_dom (o : gmap string string) :
  o ∈ projects → dom o = list_to_set IProjectProps.
Proof.
  revert o. apply elem_of_fmap_cases.
  repeat apply Forall_cons_2; [..|apply Forall_nil_2]; by vm_compute.
Qed.

(** C5: in every record of [projects], each of [repo], [live] and
    [image] is the empty string or a well-formed URL. *)
Theorem projects_links_url_or_empty (o : gmap string string) (f : string) :
  o ∈ projects → f ∈ ["repo"; "live"; "image"] →
  ∃ v : string, o !! f = Some v ∧ (v = "" ∨ Text.url v = true).
Proof.
  intros Ho Hf. revert o Ho. apply elem_of_fmap_cases.
  apply list_elem_of_In in Hf. simpl in Hf.
  repeat destruct Hf as [<-|Hf]; try done;
    repeat apply Forall_cons_2; try apply Forall_nil_2;
    (eexists; split; [reflexivity|]; first [by left | by right]).
Qed.

Lemma projects_links_url_or_empty_witness :
  let o := Js.eval (hd [] projects_src) in
  o ∈ projects ∧ "live" ∈ ["repo"; "live"; "image"] ∧
  ∃ v : string, o !! "live" = Some v ∧ (v = "" ∨ Text.url v = true).
Proof.
  intros o.
  assert (Ho : o ∈ projects) by apply list_elem_of_here.
  assert (Hf : "live" ∈ ["repo"; "live"; "image"])
    by (apply (bool_decide_unpack _); vm_compute; exact I).
  exact (conj Ho (conj Hf (projects_links_url_or_empty o "live" Ho Hf))).
Defined.

(** X9: in every record of [projects], [live] is a URL, never empty,
    and [repo] and [image] are the empty string. *)
Lemma projects_live_url (o : gmap string string) :
  o ∈ projects →
  (∃ v : string, o !! "live" = Some v ∧ Text.url v = true) ∧
  o !! "repo" = Some "" ∧ o !! "image" = Some "".
Proof.
  revert o. apply elem_of_fmap_cases.
  repeat apply Forall_cons_2; [..|apply Forall_nil_2];
    (split_and!; [by eexists|done..]).
Qed.

(** C6: in every record of [projects], [accent] is a hex colour: the
    character # followed by hexadecimal digits. *)
Theorem projects_accent_hex_color (o : gmap string string) :
  o ∈ projects →
  ∃ ds : string,
    o !! "accent" = Some (String "#" ds) ∧ ds ≠ "" ∧
    Forall (λ c, Text.is_hex_digit c) (Text.chars ds).
Proof.
  intros Ho.
  assert (∃ a, o !! "accent" = Some a ∧ Text.hex_color a = true)
    as (a & Ha & (ds & -> & Hds)%hex_color_spec); [|by exists ds].
  revert o Ho. apply elem_of_fmap_cases.
  repeat apply Forall_cons_2; [..|apply Forall_nil_2]; by eexists.
Qed.

Lemma projects_accent_hex_color_witness :
  let o := Js.eval (hd [] projects_src) in
  o ∈ projects ∧
  ∃ ds : string,
    o !! "accent" = Some (String "#" ds) ∧ ds ≠ "" ∧
    Forall (λ c, Text.is_hex_digit c) (Text.chars ds).
Proof.
  intros o. split; [apply list_elem_of_here|].
  apply (projects_accent_hex_color o), list_elem_of_here.
Defined.

(** All six records use the same accent. *)
Lemma projects_accent_value (o : gmap string string) :
  o ∈ projects → o !! "accent" = Some "#FF7E44".
Proof.
  revert o. apply elem_of_fmap_cases.
  by repeat apply Forall_cons_2; [..|apply Forall_nil_2].
Qed.

(** C10: two records of [projects] with the same [name] are the same
    element of the array. *)
Theorem projects_name_unique (i j : nat) (oi oj : gmap string string) :
  projects !! i = Some oi → projects !! j = Some oj →
  oi !! "name" = oj !! "name" → i = j.
Proof.
  intros Hi Hj Hn.
  assert (Hnd : NoDup ((λ o : gmap string string, o !! "name") <$> projects))
    by (apply (bool_decide_unpack _); by vm_compute).
  eapply NoDup_lookup; [exact Hnd|..]; rewrite list_lookup_fmap.
  - by rewrite Hi.
  - rewrite Hj. simpl. by rewrite Hn.
Qed.

Lemma projects_name_unique_witness :
  let o := Js.eval (hd [] projects_src) in
  projects !! 0 = Some o ∧ o !! "name" = o !! "name" ∧ 0 = 0.
Proof.
  intros o.
  exact (conj eq_refl (conj eq_refl
           (projects_name_unique 0 0 o o eq_refl eq_refl eq_refl))).
Defined.

End projects_shape.


(** ** Sorted lists, by position *)

Lemma StronglySorted_lookup_le (l : list nat) (i j x y : nat) :
  StronglySorted le l →
  l !! i = Some x → l !! j = Some y → i ≤ j → x ≤ y.
Proof.
  intros Hl. revert i j.
  induction Hl as [|a l Hl IH Ha]; intros i j Hi Hj Hij; [done|].
  destruct i as [|i], j as [|j]; simpl in *.
  - by simplify_eq.
  - simplify_eq. eapply Forall_forall in Ha; [exact Ha|].
    by eapply list_elem_of_lookup_2.
  - lia.
  - apply (IH i j); [done..|lia].
Qed.

Lemma Sorted_lookup_le (l : list nat) (i j x y : nat) :
  Sorted le l →
  l !! i = Some x → l !! j = Some y → i ≤ j → x ≤ y.
Proof.
  intros Hl. apply StronglySorted_lookup_le.
  by apply Sorted_StronglySorted; [apply _|].
Qed.

Section books_shape.
Import Books.

Lemma Status_parse_show (st : Status) : Status_parse (Status_show st) = Some st.
Proof. by destruct st. Qed.

Lemma Status_parse_Some (s : string) (st : Status) :
  Status_parse s = Some st → s = Status_show st.
Proof.
  unfold Status_parse. repeat case_decide; intros; by simplify_eq.
Qed.

(** C2: the [status] of every record of [bookData] is one of "Up Next",
    "Reading" and "Finished". *)
Theorem bookData_status_enumerated (b : gmap string string) :
  b ∈ bookData →
  ∃ s : string,
    b !! "status" = Some s ∧ (s = "Up Next" ∨ s = "Reading" ∨ s = "Finished").
Proof.
  revert b. apply elem_of_fmap_cases.
  repeat apply Forall_cons_2; [..|apply Forall_nil_2];
    (eexists; split; [reflexivity|]; auto).
Qed.

Lemma bookData_status_enumerated_witness :
  let b := Js.eval (hd [] bookData_src) in
  b ∈ bookData ∧
  ∃ s : string,
    b !! "status" = Some s ∧ (s = "Up Next" ∨ s = "Reading" ∨ s = "Finished").
Proof.
  intros b. split; [apply list_elem_of_here|].
  apply (bookData_status_enumerated b), list_elem_of_here.
Defined.

(** The statuses of the eighteen records, in the order of the array. *)
Lemma bookData_statuses :
  mapM status_of bookData =
  Some ([UpNext; Reading; Reading] ++ replicate 15 Finished).
Proof. by vm_compute. Qed.

(** C9: [bookData] is ordered by reading status.  The status sequence
    is monotone for Up Next < Reading < Finished; put the other way, a
    record of a lesser status stands before every record of a greater
    one (an Up Next before a Reading, a Reading before a Finished). *)
Theorem bookData_ordered_by_status
    (i j : nat) (bi bj : gmap string string) (si sj : Status) :
  bookData !! i = Some bi → bookData !! j = Some bj →
  status_of bi = Some si → status_of bj = Some sj →
  (i ≤ j → Status_rank si ≤ Status_rank sj) ∧
  (Status_rank si < Status_rank sj → i < j).
Proof.
  intros Hi Hj Hsi Hsj.
  pose proof (mapM_Some_1 _ _ _ bookData_statuses) as Hall.
  destruct (Forall2_lookup_l _ _ _ _ _ Hall Hi) as (si' & Hi' & Hsi').
  destruct (Forall2_lookup_l _ _ _ _ _ Hall Hj) as (sj' & Hj' & Hsj').
  simplify_eq.
  set (sts := [UpNext; Reading; Reading] ++ replicate 15 Finished) in *.
  assert (Hsorted : Sorted le (Status_rank <$> sts))
    by (apply (bool_decide_unpack _); by vm_compute).
  assert (Hmono : ∀ i j si sj,
    sts !! i = Some si → sts !! j = Some sj → i ≤ j →
    Status_rank si ≤ Status_rank sj).
  { intros i' j' s s' Hs Hs' Hle.
    eapply (Sorted_lookup_le _ i' j'); [exact Hsorted|..|done];
      rewrite list_lookup_fmap; [by rewrite Hs|by rewrite Hs']. }
  split; [by apply Hmono|].
  intros Hlt. destruct (decide (i < j)) as [|Hge]; [done|].
  assert (Status_rank sj ≤ Status_rank si) by (apply (Hmono j i); [done..|lia]).
  lia.
Qed.

Lemma bookData_ordered_by_status_witness :
  let b0 := Js.eval (hd [] bookData_src) in
  let b1 := Js.eval (hd [] (tail bookData_src)) in
  bookData !! 0 = Some b0 ∧ bookData !! 1 = Some b1 ∧
  status_of b0 = Some UpNext ∧ status_of b1 = Some Reading ∧
  (0 ≤ 1 → Status_rank UpNext ≤ Status_rank Reading) ∧
  (Status_rank UpNext < Status_rank Reading → 0 < 1).
Proof.
  intros b0 b1.
  exact (conj eq_refl (conj eq_refl (conj eq_refl (conj eq_refl
           (bookData_ordered_by_status 0 1 b0 b1 UpNext Reading
              eq_refl eq_refl eq_refl eq_refl))))).
Defined.

End books_shape.

(** ** What [Date.parse] accepts *)

Lemma month_of_name_range (s : string) (m : nat) :
  Date.month_of_name s = Some m → 1 ≤ m ≤ 12.
Proof.
  unfold Date.month_of_name. intros Hm.
  apply fmap_Some in Hm as ([i n] & Hfind & ->).
  apply list_find_Some in Hfind as (Hi%lookup_lt_Some & _).
  simpl in *. lia.
Qed.

Lemma parse_valid (s : string) (d : Date.date) :
  Date.parse s = Some d → Date.valid d.
Proof.
  unfold Date.parse.
  destruct (Text.split_on " " (Text.chars s)) as [|mn [|dc [|yr [|? ?]]]];
    try done.
  intros Hd. simplify_option_eq.
  split; simpl; [by eapply month_of_name_range|done].
Qed.

Section posts_shape.
Import Posts.

(** The keys of a front-matter block are distinct, as YAML requires of
    a mapping. *)
Lemma posts_src_keys_unique (m : Yaml.mapping) : m ∈ posts_src → NoDup m.*1.
Proof.
  intros Hm. apply list_elem_of_In in Hm. simpl in Hm.
  repeat destruct Hm as [<-|Hm]; try done;
    apply (bool_decide_unpack _); by vm_compute.
Qed.

(** C3: the front-matter of every blog post has a [title] that is not
    empty and a [publishDate] that reads as a date of the calendar. *)
Theorem posts_title_nonempty_date_valid (fm : gmap string Yaml.value) :
  fm ∈ posts →
  ∃ (t p : string) (d : Date.date),
    fm !! "title" = Some (Yaml.Str t) ∧ t ≠ "" ∧
    fm !! "publishDate" = Some (Yaml.Str p) ∧
    Date.parse p = Some d ∧ Date.valid d.
Proof.
  revert fm. apply elem_of_fmap_cases.
  repeat apply Forall_cons_2; [..|apply Forall_nil_2];
    (do 3 eexists; split_and!;
       [reflexivity|done|reflexivity|by vm_compute|by vm_compute; lia]).
Qed.

Lemma posts_title_nonempty_date_valid_witness :
  let fm := Yaml.load graphql_maximalist in
  fm ∈ posts ∧
  ∃ (t p : string) (d : Date.date),
    fm !! "title" = Some (Yaml.Str t) ∧ t ≠ "" ∧
    fm !! "publishDate" = Some (Yaml.Str p) ∧
    Date.parse p = Some d ∧ Date.valid d.
Proof.
  intros fm. split; [apply list_elem_of_here|].
  apply (posts_title_nonempty_date_valid fm), list_elem_of_here.
Defined.

(** Every post carries the same date, 17 December 2025. *)
Lemma posts_publishDate (fm : gmap string Yaml.value) :
  fm ∈ posts →
  ∃ p : string,
    fm !! "publishDate" = Some (Yaml.Str p) ∧
    Date.parse p = Some {| Date.year := 2025; Date.month := 12; Date.day := 17 |}.
Proof.
  revert fm. apply elem_of_fmap_cases.
  repeat apply Forall_cons_2; [..|apply Forall_nil_2];
    (eexists; split; [reflexivity|by vm_compute]).
Qed.

(** C7: the front-matter of every blog post has the five fields
    [title], [description], [publishDate], [tags] and [draft], and no
    tag occurs twice in [tags]. *)
Theorem posts_five_fields_tags_distinct (fm : gmap string Yaml.value) :
  fm ∈ posts →
  ∃ (t d p : string) (tags : list string) (dr : bool),
    fm !! "title" = Some (Yaml.Str t) ∧
    fm !! "description" = Some (Yaml.Str d) ∧
    fm !! "publishDate" = Some (Yaml.Str p) ∧
    fm !! "tags" = Some (Yaml.Seq tags) ∧ NoDup tags ∧
    fm !! "draft" = Some (Yaml.Bool dr).
Proof.
  revert fm. apply elem_of_fmap_cases.
  repeat apply Forall_cons_2; [..|apply Forall_nil_2];
    (do 5 eexists; split_and!;
       [reflexivity..|apply (bool_decide_unpack _); by vm_compute|reflexivity]).
Qed.

Lemma posts_five_fields_tags_distinct_witness :
  let fm := Yaml.load type_safe_graphql in
  fm ∈ posts ∧
  ∃ (t d p : string) (tags : list string) (dr : bool),
    fm !! "title" = Some (Yaml.Str t) ∧
    fm !! "description" = Some (Yaml.Str d) ∧
    fm !! "publishDate" = Some (Yaml.Str p) ∧
    fm !! "tags" = Some (Yaml.Seq tags) ∧ NoDup tags ∧
    fm !! "draft" = Some (Yaml.Bool dr).
Proof.
  intros fm.
  assert (Hfm : fm ∈ posts) by apply list_elem_of_further, list_elem_of_here.
  exact (conj Hfm (posts_five_fields_tags_distinct fm Hfm)).
Defined.

End posts_shape.

(** ** The handlers behind the JSON endpoints *)

Section handlers.
Import Bff.

Implicit Types (gql : GraphQLClient) (id k : string).

Ltac user_cases gql id :=
  destruct (request_GetUser gql id) as [[[?|]]|]; simpl.

Ltac backend gql id :=
  destruct (request_GetUser gql id) as [[[?|]]|];
  destruct (request_GetUserPosts gql id 5) as [[[[?]|]]|];
  simpl.

(** X1: [GET] never throws.  It answers 404 with the body
    [{ error: "User not found" }] exactly when the request is rejected
    or the backend has no such user, and 200 otherwise. *)
Theorem GET_not_found_iff gql id :
  (GET gql id = not_found ↔
     request_GetUser gql id = None ∨
     request_GetUser gql id = Some {| GetUser_user := None |}) ∧
  (GET gql id ≠ not_found → status (GET gql id) = 200).
Proof.
  unfold GET, GET_try. user_cases gql id; (split; [split|]); try done; auto.
  intros [|]; done.
Qed.

Lemma GET_not_found_iff_witness :
  GET sample_client "9" = not_found ∧ status (GET sample_client "123") = 200.
Proof.
  split.
  - apply (GET_not_found_iff sample_client "9"). by right.
  - by apply (GET_not_found_iff sample_client "123").
Defined.

(** X2: [getUser] has no [catch]: a rejected request comes out as the
    rejection and a missing user as a TypeError, and these are the cases
    in which [GET] answers 404. *)
Theorem getUser_throws_iff gql id :
  (getUser gql id = Throw Rejection ↔ request_GetUser gql id = None) ∧
  (getUser gql id = Throw TypeError ↔
     request_GetUser gql id = Some {| GetUser_user := None |}) ∧
  ((∃ e, getUser gql id = Throw e) ↔ GET gql id = not_found).
Proof.
  unfold getUser, GET, GET_try.
  user_cases gql id; split_and!; split; try done; try (intros [e He]; done); eauto.
Qed.

Lemma getUser_throws_iff_witness :
  getUser sample_client "9" = Throw TypeError ∧
  GET sample_client "9" = not_found.
Proof.
  pose proof (getUser_throws_iff sample_client "9") as (_ & Hnull & Hget).
  assert (Hthrow : getUser sample_client "9" = Throw TypeError)
    by (by apply Hnull).
  split; [exact Hthrow|]. apply Hget. by exists TypeError.
Defined.

(** X3: when [getUser] returns, [GET] answers 200 with the same [id],
    [name] and [email]; its body differs from the object of [getUser] in
    the one property [avatarUrl]. *)
Theorem GET_extends_getUser gql id (j : json) :
  getUser gql id = Return j →
  status (GET gql id) = 200 ∧
  is_Some (field "avatarUrl" (body (GET gql id))) ∧
  field "avatarUrl" j = None ∧
  ∀ k, k ≠ "avatarUrl" → field k (body (GET gql id)) = field k j.
Proof.
  unfold getUser, GET, GET_try. user_cases gql id; intros Hj; simplify_eq.
  split_and!; [done..|]. intros k Hk.
  unfold field, list_find; simpl. by repeat case_decide.
Qed.

Lemma GET_extends_getUser_witness :
  let j := JObj [("id", JStr "123"); ("name", JStr "John Doe");
                 ("email", JStr "john@example.com")] in
  getUser sample_client "123" = Return j ∧
  status (GET sample_client "123") = 200 ∧
  is_Some (field "avatarUrl" (body (GET sample_client "123"))) ∧
  field "avatarUrl" j = None ∧
  ∀ k, k ≠ "avatarUrl" → field k (body (GET sample_client "123")) = field k j.
Proof.
  intros j.
  exact (conj eq_refl (GET_extends_getUser sample_client "123" j eq_refl)).
Defined.

(** X4: when [loader] returns, its status is 200 and its [user] is the
    object [getUser] returns for the same id; [GET] answers 200 for that
    id as well. *)
Theorem loader_returns gql id (r : Response) :
  loader gql id = Return r →
  status r = 200 ∧
  (∃ u : json, getUser gql id = Return u ∧ field "user" (body r) = Some u) ∧
  status (GET gql id) = 200.
Proof.
  unfold loader, getUser, GET, GET_try.
  backend gql id; intros Hr; simplify_eq.
  split_and!; [done| |done]. by eexists.
Qed.

Lemma loader_returns_witness :
  ∃ r : Response,
    loader sample_client "123" = Return r ∧
    status r = 200 ∧
    (∃ u : json,
       getUser sample_client "123" = Return u ∧ field "user" (body r) = Some u) ∧
    status (GET sample_client "123") = 200.
Proof.
  eexists. split; [reflexivity|].
  exact (loader_returns sample_client "123" _ eq_refl).
Defined.



(** X6: [loader] throws the rejection exactly when one of its two
    requests is rejected, and a TypeError exactly when both are fulfilled
    and one of them has [user: null]. *)
Theorem loader_throws_iff gql id :
  (loader gql id = Throw Rejection ↔
     request_GetUser gql id = None ∨ request_GetUserPosts gql id 5 = None) ∧
  (loader gql id = Throw TypeError ↔
     ∃ (d : GetUserQuery) (d' : GetUserPostsQuery),
       request_GetUser gql id = Some d ∧
       request_GetUserPosts gql id 5 = Some d' ∧
       (GetUser_user d = None ∨ GetUserPosts_user d' = None)).
Proof.
  unfold loader.
  backend gql id; (split; split);
    try done; try (intros [|]; done);
    try (intros (d & d' & ? & ? & [|]); by simplify_eq/=);
    try (by auto); by (eexists _, _; split_and!; [done..|]; auto).
Qed.

Lemma loader_throws_iff_witness :
  loader sample_client "9" = Throw TypeError ∧
  loader sample_client "123" ≠ Throw Rejection.
Proof.
  pose proof (loader_throws_iff sample_client "9") as (_ & Hnull).
  pose proof (loader_throws_iff sample_client "123") as (Hrej & _).
  split.
  - apply Hnull. eexists _, _. split_and!; [reflexivity..|by left].
  - intros [|]%Hrej; done.
Defined.

Lemma keys_post_views (ps : list Post) (k : string) :
  k ∈ concat (List.map keys (List.map post_view ps)) →
  k ∈ ["id"; "title"; "excerpt"].
Proof.
  induction ps as [|p ps IH]; simpl; [by intros ?%elem_of_nil|].
  rewrite !elem_of_cons. intros [->|[->|[->|Hk]]]; auto.
  specialize (IH Hk). by rewrite !elem_of_cons in IH.
Qed.

(** X7: whatever the backend holds, the property names in a body that
    [loader] returns are among [user], [posts], [id], [name], [email],
    [title] and [excerpt]: the backend's [first_name], [last_name],
    [avatar_url] and [created_at] never show. *)
Theorem loader_keys gql id (r : Response) (k : string) :
  loader gql id = Return r → k ∈ keys (body r) →
  k ∈ ["user"; "posts"; "id"; "name"; "email"; "title"; "excerpt"] ∧
  k ∉ ["first_name"; "last_name"; "avatar_url"; "created_at"].
Proof.
  intros Hr Hk.
  assert (k ∈ ["user"; "posts"; "id"; "name"; "email"; "title"; "excerpt"])
    as Hin; [|split; [done|]].
  - unfold loader in Hr. revert Hr. backend gql id; intros Hr; simplify_eq.
    simpl in Hk. rewrite app_nil_r in Hk.
    rewrite !elem_of_cons in Hk. rewrite !elem_of_cons.
    destruct Hk as [->|[->|[->|[->|[->|Hk]]]]]; auto 10.
    apply keys_post_views in Hk. rewrite !elem_of_cons in Hk.
    destruct Hk as [->|[->|[->|[]%elem_of_nil]]]; auto 10.
  - rewrite !elem_of_cons in Hin.
    destruct Hin as [->|[->|[->|[->|[->|[->|[->|[]%elem_of_nil]]]]]]];
      by apply (bool_decide_unpack _).
Qed.

Lemma loader_keys_witness :
  ∃ r : Response,
    loader sample_client "123" = Return r ∧ "excerpt" ∈ keys (body r) ∧
    "excerpt" ∈ ["user"; "posts"; "id"; "name"; "email"; "title"; "excerpt"] ∧
    "excerpt" ∉ ["first_name"; "last_name"; "avatar_url"; "created_at"].
Proof.
  eexists. split; [reflexivity|].
  assert (Hk : "excerpt" ∈ keys (body (Response_json
            (JObj [ ("user",
                     JObj [ ("id", JStr "123"); ("name", JStr "John Doe");
                            ("email", JStr "john@example.com") ]);
                    ("posts", JArr (post_view <$> john_posts)) ]) None)))
    by (apply (bool_decide_unpack _); vm_compute; exact I).
  exact (conj Hk (loader_keys sample_client "123" _ "excerpt" eq_refl Hk)).
Defined.

(** The answer the post shows under "What the browser sees" for the
    user 123 is what [getUser] returns; the body of [GET] has
    [avatarUrl] besides. *)
Example getUser_john :
  getUser sample_client "123" =
  Return (JObj [ ("id", JStr "123"); ("name", JStr "John Doe");
                 ("email", JStr "john@example.com") ]).
Proof. reflexivity. Qed.

End handlers.

(** ** More on the shape of the exported data *)

Section data_shape.
Import Projects Books Posts.

Lemma projects_dom_witness :
  let o := Js.eval (hd [] projects_src) in
  o ∈ projects ∧ dom o = list_to_set IProjectProps.
Proof.
  intros o. split; [apply list_elem_of_here|].
  apply (projects_dom o), list_elem_of_here.
Defined.

Lemma projects_live_url_witness :
  let o := Js.eval (hd [] projects_src) in
  o ∈ projects ∧
  (∃ v : string, o !! "live" = Some v ∧ Text.url v = true) ∧
  o !! "repo" = Some "" ∧ o !! "image" = Some "".
Proof.
  intros o. split; [apply list_elem_of_here|].
  apply (projects_live_url o), list_elem_of_here.
Defined.

(** X10: every record of [bookData] has exactly the three properties
    [title], [author] and [status], and neither its title nor its author
    is the empty string. *)
Theorem bookData_record_shape (b : gmap string string) :
  b ∈ bookData →
  dom b = {["title"; "author"; "status"]} ∧
  ∃ t a : string,
    b !! "title" = Some t ∧ t ≠ "" ∧ b !! "author" = Some a ∧ a ≠ "".
Proof.
  revert b. apply elem_of_fmap_cases.
  repeat apply Forall_cons_2; [..|apply Forall_nil_2];
    (split; [by vm_compute|]; do 2 eexists;
     repeat split; first [reflexivity | done]).
Qed.

Lemma bookData_record_shape_witness :
  let b := Js.eval (hd [] bookData_src) in
  b ∈ bookData ∧
  dom b = {["title"; "author"; "status"]} ∧
  ∃ t a : string,
    b !! "title" = Some t ∧ t ≠ "" ∧ b !! "author" = Some a ∧ a ≠ "".
Proof.
  intros b. split; [apply list_elem_of_here|].
  apply (bookData_record_shape b), list_elem_of_here.
Defined.

(** X11: no two records of [bookData] have the same title, though two
    of them have the same author. *)
Theorem bookData_title_unique (i j : nat) (bi bj : gmap string string) :
  bookData !! i = Some bi → bookData !! j = Some bj →
  bi !! "title" = bj !! "title" → i = j.
Proof.
  intros Hi Hj Ht.
  assert (Hnd : NoDup ((λ b : gmap string string, b !! "title") <$> bookData))
    by (apply (bool_decide_unpack _); by vm_compute).
  eapply NoDup_lookup; [exact Hnd|..]; rewrite list_lookup_fmap.
  - by rewrite Hi.
  - rewrite Hj. simpl. by rewrite Ht.
Qed.

Lemma bookData_title_unique_witness :
  let b := Js.eval (hd [] bookData_src) in
  bookData !! 0 = Some b ∧ b !! "title" = b !! "title" ∧ 0 = 0.
Proof.
  intros b.
  exact (conj eq_refl (conj eq_refl
           (bookData_title_unique 0 0 b b eq_refl eq_refl eq_refl))).
Defined.

(** The author is no key: the ninth and the tenth record share it. *)
Example bookData_author_repeats :
  ∃ b b' : gmap string string,
    bookData !! 8 = Some b ∧ bookData !! 9 = Some b' ∧
    b !! "author" = b' !! "author".
Proof. by eexists _, _. Qed.

(** X12: every front-matter block is written with the same five keys in
    the same order, [title], [description], [publishDate], [tags],
    [draft], each once and no other. *)
Theorem posts_src_keys (m : Yaml.mapping) :
  m ∈ posts_src →
  m.*1 = ["title"; "description"; "publishDate"; "tags"; "draft"].
Proof.
  intros Hm. apply list_elem_of_In in Hm. simpl in Hm.
  by repeat destruct Hm as [<-|Hm].
Qed.

Lemma posts_src_keys_witness :
  type_safe_graphql ∈ posts_src ∧
  type_safe_graphql.*1 = ["title"; "description"; "publishDate"; "tags"; "draft"].
Proof.
  assert (Hm : type_safe_graphql ∈ posts_src)
    by apply list_elem_of_further, list_elem_of_here.
  exact (conj Hm (posts_src_keys type_safe_graphql Hm)).
Defined.

End data_shape.
